(** * The OASIS VBM dataset fetcher

    A shallow embedding of [nidata/anatomical/oasis_vbm/datasets.py]
    ([OasisVbmDataset.fetch] and [fetch_oasis_vbm]) together with the
    properties of the manifest it builds, of the way it splits the fetched
    paths and of the covariates filtering.

    Python integers are [Z], [bytes] is [list byte], lists are [list].  A
    [str] is held as the [string] of its UTF-8 bytes: concatenation,
    splitting at an ASCII separator and [encode] work on the bytes as they
    are, and a slice counts code points, not bytes.  A record array read by
    [np.recfromcsv] is a [recarray]: a single record (no dimension) or a
    sequence of rows.  Exceptions are values of [exn]; the calls that leave
    the module (the HTTP fetcher, [np.recfromcsv]) are parameters of the
    section that embeds [fetch], and every such call is recorded in a trace
    of events. *)

From Stdlib Require Import ZArith List Bool Lia.
From Stdlib Require Import Strings.String Strings.Ascii Strings.Byte.
From Stdlib Require Import Numbers.DecimalString.
From Stdlib Require Import Sorting.Permutation Sorting.Sorted.
Import ListNotations.

Local Open Scope string_scope.
Local Open Scope Z_scope.

(* ================================================================= *)
(** ** Exceptions and the two monads *)

(** The exceptions that the embedded code can raise.  [External] stands for
    whatever a collaborator outside this module raises (a retrieval error of
    the fetcher, a parse error of the CSV reader). *)
Inductive exn : Type :=
| ValueError (msg : string)
| NameError (name : string)
| IndexError (msg : string)
| TypeError (msg : string)
| External (msg : string).

(** Pure code that may raise. *)
Inductive result (A : Type) : Type :=
| Ok (a : A)
| Raise (e : exn).
Arguments Ok {A} a.
Arguments Raise {A} e.

Definition rbind {A B} (r : result A) (k : A -> result B) : result B :=
  match r with
  | Ok a => k a
  | Raise e => Raise e
  end.

Fixpoint rmap {A B} (f : A -> result B) (l : list A) : result (list B) :=
  match l with
  | [] => Ok []
  | x :: l' =>
      rbind (f x) (fun y => rbind (rmap f l') (fun ys => Ok (y :: ys)))
  end.

(* ================================================================= *)
(** ** The Python built-ins the module relies on *)

Module Py.

(** [range(lo, hi)] *)
Definition range (lo hi : Z) : list Z :=
  map (fun i => lo + Z.of_nat i) (seq 0 (Z.to_nat (hi - lo))).

(** [x in l], with the equality test of the element type. *)
Definition contains {A} (eqb : A -> A -> bool) (x : A) (l : list A) : bool :=
  existsb (eqb x) l.

(** A slice bound [i] of a sequence of length [len]: negative bounds count
    from the end, and every bound is clamped to [0 .. len]. *)
Definition slice_index (len : nat) (i : Z) : nat :=
  if i <? 0 then Z.to_nat (Z.max 0 (Z.of_nat len + i))
  else Nat.min len (Z.to_nat i).

(** [l[lo:hi]]; [None] is an omitted bound. *)
Definition slice {A} (lo hi : option Z) (l : list A) : list A :=
  let len := List.length l in
  let a := match lo with None => 0%nat | Some i => slice_index len i end in
  let b := match hi with None => len | Some i => slice_index len i end in
  skipn a (firstn b l).

(** [l[i]]: negative indices count from the end, and an index outside the
    list raises [IndexError]. *)
Definition getitem {A} (l : list A) (i : Z) : result A :=
  let j := if i <? 0 then Z.of_nat (List.length l) + i else i in
  if j <? 0 then Raise (IndexError "list index out of range")
  else match nth_error l (Z.to_nat j) with
       | Some x => Ok x
       | None => Raise (IndexError "list index out of range")
       end.

(** [sorted(l)] on integers: an ascending, stable sort. *)
Fixpoint insert (x : Z) (l : list Z) : list Z :=
  match l with
  | [] => [x]
  | y :: l' => if x <? y then x :: l else y :: insert x l'
  end.

Fixpoint sorted (l : list Z) : list Z :=
  match l with
  | [] => []
  | x :: l' => insert x (sorted l')
  end.

(** Decimal digits of an integer, as [str(n)] prints them. *)
Definition str_of_int (n : Z) : string :=
  NilZero.string_of_int (Z.to_int n).

Fixpoint zeros (k : nat) : string :=
  match k with
  | O => ""
  | S k' => String "0" (zeros k')
  end.

Definition zfill (width : nat) (s : string) : string :=
  zeros (width - String.length s)%nat ++ s.

(** ['%d' % n] and ['%04d' % n]; the sign counts in the width. *)
Definition fmt_d (n : Z) : string := str_of_int n.

Definition fmt_04d (n : Z) : string :=
  if n <? 0 then String "-" (zfill 3 (str_of_int (- n)))
  else zfill 4 (str_of_int n).

(** [template % args] for templates whose only directives are [%d] and
    [%04d].  [skip] counts the characters of a directive still to be
    passed over. *)
Fixpoint percent_from (skip : nat) (template : string) (args : list Z)
  : result string :=
  match template with
  | EmptyString =>
      match args with
      | [] => Ok ""
      | _ :: _ =>
          Raise (TypeError
                   "not all arguments converted during string formatting")
      end
  | String c rest =>
      match skip with
      | S k => percent_from k rest args
      | O =>
          if prefix "%04d" template then
            match args with
            | a :: args' =>
                rbind (percent_from 3 rest args')
                      (fun tail => Ok (fmt_04d a ++ tail))
            | [] => Raise (TypeError "not enough arguments for format string")
            end
          else if prefix "%d" template then
            match args with
            | a :: args' =>
                rbind (percent_from 1 rest args')
                      (fun tail => Ok (fmt_d a ++ tail))
            | [] => Raise (TypeError "not enough arguments for format string")
            end
          else
            rbind (percent_from 0 rest args)
                  (fun tail => Ok (String c tail))
      end
  end.

Definition percent (template : string) (args : list Z) : result string :=
  percent_from 0 template args.

(** A byte [10xxxxxx] continues the code point begun before it. *)
Definition is_continuation (c : ascii) : bool :=
  match c with
  | Ascii _ _ _ _ _ _ b6 b7 => b7 && negb b6
  end.

(** [s[:n]] on a string, for a non-negative literal [n]: the first [n] code
    points, each with all its bytes. *)
Fixpoint str_take (n : nat) (s : string) : string :=
  match s with
  | EmptyString => ""
  | String c s' =>
      if is_continuation c then String c (str_take n s')
      else match n with
           | O => ""
           | S n' => String c (str_take n' s')
           end
  end.

Fixpoint rev_onto (acc s : string) : string :=
  match s with
  | EmptyString => acc
  | String c s' => rev_onto (String c acc) s'
  end.

Definition str_rev (s : string) : string := rev_onto "" s.

(** [str.split(s, sep)] for a non-empty [sep]: the pieces between the
    non-overlapping occurrences of [sep], found from the left.  [piece]
    holds the current piece reversed, [skip] the characters of an
    occurrence of [sep] still to be passed over. *)
Fixpoint split_from (sep : string) (skip : nat) (piece : string)
         (s : string) : list string :=
  match s with
  | EmptyString => [str_rev piece]
  | String c s' =>
      match skip with
      | S k => split_from sep k piece s'
      | O =>
          if prefix sep s
          then str_rev piece
                 :: split_from sep (Nat.pred (String.length sep)) "" s'
          else split_from sep 0 (String c piece) s'
      end
  end.

Definition split (s sep : string) : result (list string) :=
  match sep with
  | EmptyString => Raise (ValueError "empty separator")
  | String _ _ => Ok (split_from sep 0 "" s)
  end.

(** [s.encode()]: the UTF-8 bytes of the string, which are the bytes that
    hold it. *)
Definition encode (s : string) : list byte := list_byte_of_string s.

Fixpoint bytes_eqb (a b : list byte) : bool :=
  match a, b with
  | [], [] => true
  | x :: a', y :: b' => Byte.eqb x y && bytes_eqb a' b'
  | _, _ => false
  end.

End Py.

(** [os.path] on a POSIX system. *)
Module os_path.

Definition ends_with_sep (p : string) : bool :=
  match Py.str_rev p with
  | String c _ => Ascii.eqb c "/"
  | EmptyString => false
  end.

(** [os.path.join(a, b)] *)
Definition join (a b : string) : string :=
  if prefix "/" b then b
  else if (String.eqb a "" || ends_with_sep a)%bool then a ++ b
  else a ++ "/" ++ b.

(** [os.path.basename(p)] is [p[p.rfind('/') + 1:]]: what follows the last
    separator.  [cand] is what follows the last separator seen so far. *)
Fixpoint after_last_sep (cand p : string) : string :=
  match p with
  | EmptyString => cand
  | String c rest =>
      if Ascii.eqb c "/" then after_last_sep rest rest
      else after_last_sep cand rest
  end.

Definition basename (p : string) : string := after_last_sep p p.

End os_path.

(** [a[mask]] on a numpy array, for a boolean [mask]: the elements at the
    positions where the mask is true, in their order. *)
Module np.

Fixpoint take_mask {A} (a : list A) (mask : list bool) : list A :=
  match a, mask with
  | x :: a', b :: mask' =>
      if b then x :: take_mask a' mask' else take_mask a' mask'
  | _, _ => []
  end.

(** [np.asarray(l)] for a list of booleans: an array of booleans, but an
    array of floats when the list is empty. *)
Inductive index_array : Type :=
| float_empty
| bool_array (mask : list bool).

Definition asarray (l : list bool) : index_array :=
  match l with
  | [] => float_empty
  | _ :: _ => bool_array l
  end.

(** [a[ix]] on a one-dimensional array [a]: an array of floats is no index,
    and a boolean mask must be as long as the array. *)
Definition index {A} (a : list A) (ix : index_array) : result (list A) :=
  match ix with
  | float_empty =>
      Raise (IndexError
               "arrays used as indices must be of integer (or boolean) type")
  | bool_array mask =>
      if Nat.eqb (List.length mask) (List.length a)
      then Ok (take_mask a mask)
      else Raise (IndexError "boolean index did not match indexed array")
  end.

End np.

(* ================================================================= *)
(** ** Effects: warnings, the fetcher, the CSV reader *)

(** A resource entry of the manifest: (relative path, source URL, options). *)
Definition opts : Type := list (string * bool).
Definition entry : Type := (string * string * opts)%type.

(** A row of the covariates table: its [id] column and the other columns. *)
Record csv_row : Type := Row { id : list byte; covariates : list string }.

(** What [np.recfromcsv] returns: a record without dimension for a file
    with a single row, a one-dimensional array of rows otherwise. *)
Inductive recarray : Type :=
| ZeroDim (row : csv_row)
| OneDim (rows : list csv_row).

(** The rows a record array holds. *)
Definition records (csv_data : recarray) : list csv_row :=
  match csv_data with
  | ZeroDim row => [row]
  | OneDim rows => rows
  end.

(** [for subject_id in csv_data['id']]: a column without dimension cannot
    be iterated. *)
Definition iter_ids (csv_data : recarray) : result (list (list byte)) :=
  match csv_data with
  | ZeroDim _ => Raise (TypeError "iteration over a 0-d array")
  | OneDim rows => Ok (map id rows)
  end.

(** What a call leaves behind, in the order it happens. *)
Inductive event : Type :=
| Warned (msg : string)
| Fetched (file_names : list entry) (resume force : bool) (verbose : Z)
| CsvRead (path : string).

Definition trace : Type := list event.

(** Code that may raise and that appends to the trace. *)
Definition M (A : Type) : Type := trace -> result A * trace.

Definition ret {A} (a : A) : M A := fun tr => (Ok a, tr).

Definition raise {A} (e : exn) : M A := fun tr => (Raise e, tr).

Definition bind {A B} (m : M A) (k : A -> M B) : M B :=
  fun tr =>
    match m tr with
    | (Ok a, tr') => k a tr'
    | (Raise e, tr') => (Raise e, tr')
    end.

Definition emit (e : event) : M unit := fun tr => (Ok tt, (tr ++ [e])%list).

Definition lift {A} (r : result A) : M A := fun tr => (r, tr).

Notation "x <- m ;; k" := (bind m (fun x => k))
  (at level 61, m at next level, right associativity).
Notation "m ;;; k" := (bind m (fun _ => k))
  (at level 61, right associativity).

(** The names bound at module level: the imports of lines 8-14 and the two
    definitions of the module. *)
Definition module_globals : list string :=
  ["os"; "np"; "Bunch"; "HttpDataset"; "format_time"; "md5_sum_file";
   "OasisVbmDataset"; "fetch_oasis_vbm"].

(** Evaluating a module-level name that [fetch] does not bind itself. *)
Definition global (name : string) : M unit :=
  if Py.contains String.eqb name module_globals then ret tt
  else raise (NameError name).

(* ================================================================= *)
(** ** The constants of the dataset *)

(** [missing_subjects], lines 149-152. *)
Definition missing_subjects : list Z :=
  [8; 24; 36; 48; 89; 93; 100; 118; 128; 149; 154;
   171; 172; 175; 187; 194; 196; 215; 219; 225; 242;
   245; 248; 251; 252; 257; 276; 297; 306; 320; 324;
   334; 347; 360; 364; 391; 393; 412; 414; 427; 436].

(** [removed_outliers], lines 156-157 and 175. *)
Definition removed_outliers (dartel_version : bool) : list Z :=
  if dartel_version
  then [27; 57; 66; 83; 122; 157; 222; 269; 282; 287; 309; 428]
  else [390].

(** [missing_subjects] as rebound at lines 158 and 176:
    [sorted(missing_subjects + removed_outliers)]. *)
Definition missing_and_removed (dartel_version : bool) : list Z :=
  Py.sorted (missing_subjects ++ removed_outliers dartel_version)%list.

(** The subject numbers the comprehensions range over:
    [for s in range(1, 457) if s not in missing_subjects]. *)
Definition available_subjects (dartel_version : bool) : list Z :=
  filter (fun s => negb (Py.contains Z.eqb s (missing_and_removed dartel_version)))
         (Py.range 1 457).

(** The largest subject count the call accepts as it is: the literals of
    lines 107, 109 and 116. *)
Definition cap (dartel_version : bool) : Z :=
  if dartel_version then 403 else 415.

(* ================================================================= *)
(** ** The steps of [OasisVbmDataset.fetch] *)

(** Lines 106-107: an unset number of subjects. *)
Definition default_n_subjects (n_subjects : option Z) (dartel_version : bool)
  : Z :=
  match n_subjects with
  | None => if dartel_version then 403 else 415
  | Some n => n
  end.

(** Lines 106-123: the number of subjects. *)
Definition check_n_subjects (n_subjects : option Z) (dartel_version : bool)
  : M Z :=
  let n_subjects := default_n_subjects n_subjects dartel_version in
  n_subjects <-
    (if dartel_version then
       if n_subjects >? 403 then
         global "warnings" ;;;
         msg <- lift (Py.percent
                        ("Only 403 subjects are available in the "
                         ++ "DARTEL-normalized version of the dataset. "
                         ++ "All of them will be used instead of the wanted %d")
                        [n_subjects]) ;;
         emit (Warned msg) ;;;
         ret 403
       else ret n_subjects
     else
       if n_subjects >? 415 then
         global "warnings" ;;;
         msg <- lift (Py.percent
                        ("Only 415 subjects are available in the "
                         ++ "non-DARTEL-normalized version of the dataset. "
                         ++ "All of them will be used instead of the wanted %d")
                        [n_subjects]) ;;
         emit (Warned msg) ;;;
         ret 415
       else ret n_subjects) ;;
  if n_subjects <? 1 then
    msg <- lift (Py.percent "Incorrect number of subjects (%d)" [n_subjects]) ;;
    raise (ValueError msg)
  else ret n_subjects.

(** Lines 126-144: the archive, the covariates and the agreement URLs. *)
Record urls : Type := Urls {
  url_images : string;
  url_csv : string;
  url_dua : string
}.

Definition pick_urls (url : option string) (dartel_version : bool) : urls :=
  match url with
  | None =>
      let url_images :=
        if dartel_version
        then "https://www.nitrc.org/frs/download.php/"
             ++ "6364/archive_dartel.tgz?i_agree=1&download_now=1"
        else "https://www.nitrc.org/frs/download.php/"
             ++ "6359/archive.tgz?i_agree=1&download_now=1" in
      let url_csv :=
        "https://www.nitrc.org/frs/download.php/"
        ++ "6348/oasis_cross-sectional.csv?i_agree=1&download_now=1" in
      let url_dua :=
        "https://www.nitrc.org/frs/download.php/"
        ++ "6349/data_usage_agreement.txt?i_agree=1&download_now=1" in
      Urls url_images url_csv url_dua
  | Some url =>
      let url_csv := url ++ "/oasis_cross-sectional.csv" in
      let url_dua := url ++ "/data_usage_agreement.txt" in
      let url_images :=
        if dartel_version then url ++ "/archive_dartel.tgz"
        else url ++ "/archive.tgz" in
      Urls url_images url_csv url_dua
  end.

(** The file-name templates of lines 160-162, 167-169, 178-180, 185-187. *)
Definition gm_template (dartel_version : bool) : string :=
  os_path.join
    "OAS1_%04d_MR1"
    (if dartel_version
     then "mwrc1OAS1_%04d_MR1_mpr_anon_fslswapdim_bet.nii.gz"
     else "mwc1OAS1_%04d_MR1_mpr_anon_fslswapdim_bet.nii.gz").

Definition wm_template (dartel_version : bool) : string :=
  os_path.join
    "OAS1_%04d_MR1"
    (if dartel_version
     then "mwrc2OAS1_%04d_MR1_mpr_anon_fslswapdim_bet.nii.gz"
     else "mwc2OAS1_%04d_MR1_mpr_anon_fslswapdim_bet.nii.gz").

(** [[(template % (s, s), url_images, opts)
      for s in range(1, 457) if s not in missing_subjects]] *)
Definition comprehension (template url_images : string)
           (dartel_version : bool) : result (list entry) :=
  rmap (fun s =>
          rbind (Py.percent template [s; s])
                (fun path => Ok (path, url_images, [("uncompress", true)])))
       (available_subjects dartel_version).

(** Lines 159-165 and 177-183: truncated where it is built. *)
Definition file_names_gm (dartel_version : bool) (url_images : string)
           (n_subjects : Z) : result (list entry) :=
  rbind (comprehension (gm_template dartel_version) url_images dartel_version)
        (fun l => Ok (Py.slice None (Some n_subjects) l)).

(** Lines 166-172 and 184-190: not truncated where it is built. *)
Definition file_names_wm (dartel_version : bool) (url_images : string)
  : result (list entry) :=
  comprehension (wm_template dartel_version) url_images dartel_version.

(** Lines 191-192. *)
Definition file_names_extvars (url_csv : string) : list entry :=
  [("oasis_cross-sectional.csv", url_csv, [])].

Definition file_names_dua (url_dua : string) : list entry :=
  [("data_usage_agreement.txt", url_dua, [])].

(** Lines 146-198: the manifest handed to the fetcher, together with the
    two per-subject lists as truncated at lines 194-195. *)
Record manifest : Type := Manifest {
  manifest_gm : list entry;
  manifest_wm : list entry;
  file_names : list entry
}.

Definition build_file_names (n_subjects : Z) (dartel_version : bool)
           (url : option string) : result manifest :=
  let u := pick_urls url dartel_version in
  rbind (file_names_gm dartel_version (url_images u) n_subjects) (fun gm =>
  rbind (file_names_wm dartel_version (url_images u)) (fun wm =>
  let extvars := file_names_extvars (url_csv u) in
  let dua := file_names_dua (url_dua u) in
  let gm := Py.slice None (Some n_subjects) gm in
  let wm := Py.slice None (Some n_subjects) wm in
  Ok (Manifest gm wm (gm ++ wm ++ extvars ++ dua)%list))).

(** Lines 203-206: the fetched paths, cut by position. *)
Record split : Type := Split {
  gm_maps : list string;
  wm_maps : list string;
  ext_vars_file : string;
  dua_file : string
}.

Definition split_files (n_subjects : Z) (files : list string) : result split :=
  let gm_maps := Py.slice None (Some n_subjects) files in
  let wm_maps := Py.slice (Some n_subjects) (Some (2 * n_subjects)) files in
  rbind (Py.getitem files (-2)) (fun ext_vars_file =>
  rbind (Py.getitem files (-1)) (fun data_usage_agreement =>
  Ok (Split gm_maps wm_maps ext_vars_file data_usage_agreement))).

(** Lines 211-214: the id of a fetched gray-matter map, as bytes. *)
Definition subject_id_of (x : string) : result (list byte) :=
  rbind (Py.split (os_path.basename x) "OAS1") (fun parts =>
  rbind (Py.getitem parts 1) (fun part =>
  Ok (Py.encode ("OAS1" ++ Py.str_take 9 part)))).

Definition actual_subjects_ids (gm_maps : list string)
  : result (list (list byte)) :=
  rmap subject_id_of gm_maps.

(** Lines 215-216: the mask of the rows of the selected subjects. *)
Definition subject_mask (csv_data : recarray)
           (actual_subjects_ids : list (list byte)) : result np.index_array :=
  rbind (iter_ids csv_data) (fun column =>
  Ok (np.asarray
        (map (fun subject_id =>
                Py.contains Py.bytes_eqb subject_id actual_subjects_ids)
             column))).

(** Line 217: [csv_data[subject_mask]]. *)
Definition select_rows (csv_data : recarray) (subject_mask : np.index_array)
  : result (list csv_row) :=
  match csv_data with
  | ZeroDim _ => Raise (IndexError "too many indices for array")
  | OneDim rows => np.index rows subject_mask
  end.

(** Lines 211-217: the rows of the selected subjects. *)
Definition keep_selected (csv_data : recarray) (gm_maps : list string)
  : result (list csv_row) :=
  rbind (actual_subjects_ids gm_maps) (fun ids =>
  rbind (subject_mask csv_data ids) (fun subject_mask =>
  select_rows csv_data subject_mask)).

(** The returned [Bunch]. *)
Record Bunch : Type := mkBunch {
  gray_matter_maps : list string;
  white_matter_maps : list string;
  ext_vars : list csv_row;
  data_usage_agreement : string
}.

Section Fetch.

(** [self.fetcher.fetch] of the dataset built for [data_dir], and
    [np.recfromcsv]: both live outside this module. *)
Variable fetcher_fetch :
  option string -> list entry -> bool -> bool -> Z -> result (list string).
Variable recfromcsv : string -> result recarray.

(** [OasisVbmDataset(data_dir=data_dir).fetch(...)], lines 103-223. *)
Definition fetch (data_dir : option string) (n_subjects : option Z)
           (dartel_version : bool) (url : option string)
           (resume force : bool) (verbose : Z) : M Bunch :=
  n_subjects <- check_n_subjects n_subjects dartel_version ;;
  global "os" ;;;
  m <- lift (build_file_names n_subjects dartel_version url) ;;
  emit (Fetched (file_names m) resume force verbose) ;;;
  files <- lift (fetcher_fetch data_dir (file_names m) resume force verbose) ;;
  parts <- lift (split_files n_subjects files) ;;
  global "np" ;;;
  emit (CsvRead (ext_vars_file parts)) ;;;
  csv_data <- lift (recfromcsv (ext_vars_file parts)) ;;
  csv_data <- lift (keep_selected csv_data (gm_maps parts)) ;;
  global "Bunch" ;;;
  ret (mkBunch (gm_maps parts) (wm_maps parts) csv_data (dua_file parts)).

(** [fetch_oasis_vbm], lines 226-232: [force] keeps its default. *)
Definition fetch_oasis_vbm (n_subjects : option Z) (dartel_version : bool)
           (data_dir url : option string) (resume : bool) (verbose : Z)
  : M Bunch :=
  fetch data_dir n_subjects dartel_version url resume false verbose.

End Fetch.

(* ================================================================= *)
(** ** Concrete collaborators, for running the embedding *)

(** A fetcher that stores every entry under the data directory and returns
    the local paths in the order of the manifest. *)
Definition local_fetcher (data_dir : option string) (file_names : list entry)
           (resume force : bool) (verbose : Z) : result (list string) :=
  let root := match data_dir with Some d => d | None => "/nidata" end in
  Ok (map (fun e => root ++ "/oasis_vbm/" ++ fst (fst e)) file_names).

(** The id the covariates table gives subject [s]. *)
Definition table_id (s : Z) : list byte :=
  Py.encode ("OAS1_" ++ Py.fmt_04d s ++ "_MR1").

(** A covariates table with one row per subject of [subjects]. *)
Definition table_of (subjects : list Z) : list csv_row :=
  map (fun s => Row (table_id s) [Py.fmt_d s]) subjects.

Definition ten_rows_csv (path : string) : result recarray :=
  Ok (OneDim (table_of (Py.range 1 11))).

(* ================================================================= *)
(** ** Lists, slices and sorting *)

Section ListFacts.

Context {A : Type}.
Implicit Types l : list A.

Lemma firstn_min_length l k :
  firstn (Nat.min (List.length l) k) l = firstn k l.
Proof.
  destruct (Nat.le_gt_cases k (List.length l)) as [Hle | Hgt].
  - now rewrite Nat.min_r.
  - rewrite Nat.min_l by lia.
    rewrite firstn_all. symmetry. apply firstn_all2. lia.
Qed.

Lemma slice_to l n :
  0 <= n -> Py.slice None (Some n) l = firstn (Z.to_nat n) l.
Proof.
  intros Hn. unfold Py.slice, Py.slice_index.
  destruct (Z.ltb_spec n 0) as [Hneg | _]; [lia |].
  cbn [skipn]. apply firstn_min_length.
Qed.

Lemma slice_next l n :
  0 <= n ->
  Py.slice (Some n) (Some (2 * n)) l
  = firstn (Z.to_nat n) (skipn (Z.to_nat n) l).
Proof.
  intros Hn. unfold Py.slice, Py.slice_index.
  destruct (Z.ltb_spec n 0) as [Hneg | _]; [lia |].
  destruct (Z.ltb_spec (2 * n) 0) as [Hneg | _]; [lia |].
  rewrite firstn_min_length.
  replace (Z.to_nat (2 * n)) with (Z.to_nat n + Z.to_nat n)%nat by lia.
  rewrite firstn_skipn_comm.
  destruct (Nat.le_gt_cases (Z.to_nat n) (List.length l)) as [Hle | Hgt].
  - now rewrite Nat.min_r.
  - rewrite Nat.min_l by lia.
    rewrite !skipn_all2; [reflexivity | |];
      rewrite length_firstn; lia.
Qed.

Lemma length_slice_to l n :
  0 <= n ->
  List.length (Py.slice None (Some n) l)
  = Nat.min (Z.to_nat n) (List.length l).
Proof. intros Hn. rewrite slice_to by assumption. apply length_firstn. Qed.

Lemma length_slice_le (lo hi : option Z) l :
  (List.length (Py.slice lo hi l) <= List.length l)%nat.
Proof.
  unfold Py.slice. rewrite length_skipn, length_firstn. lia.
Qed.

(** The last two elements, by negative index. *)
Lemma getitem_last_but_one l (c a : A) :
  Py.getitem (l ++ [c; a]) (-2) = Ok c.
Proof.
  unfold Py.getitem. cbn [Z.ltb Z.compare].
  rewrite length_app. cbn [List.length].
  destruct (Z.ltb_spec (Z.of_nat (List.length l + 2) + -2) 0); [lia |].
  replace (Z.to_nat (Z.of_nat (List.length l + 2) + -2))
    with (List.length l + 0)%nat by lia.
  now rewrite nth_error_app2, Nat.add_comm, Nat.add_sub by lia.
Qed.

Lemma getitem_last l (c a : A) :
  Py.getitem (l ++ [c; a]) (-1) = Ok a.
Proof.
  unfold Py.getitem. cbn [Z.ltb Z.compare].
  rewrite length_app. cbn [List.length].
  destruct (Z.ltb_spec (Z.of_nat (List.length l + 2) + -1) 0); [lia |].
  replace (Z.to_nat (Z.of_nat (List.length l + 2) + -1))
    with (List.length l + 1)%nat by lia.
  now rewrite nth_error_app2, Nat.add_comm, Nat.add_sub by lia.
Qed.

(** Selecting by a mask computed row by row is filtering. *)
Lemma take_mask_map (f : A -> bool) l :
  np.take_mask l (map f l) = filter f l.
Proof.
  induction l as [| x l IH]; cbn; [reflexivity |].
  rewrite IH. reflexivity.
Qed.

End ListFacts.

(** [rmap] of a function that never raises is [map]. *)
Lemma rmap_total {A B} (f : A -> result B) (g : A -> B) (l : list A) :
  (forall x, f x = Ok (g x)) -> rmap f l = Ok (map g l).
Proof.
  intros Hf. induction l as [| x l IH]; cbn; [reflexivity |].
  now rewrite Hf, IH.
Qed.

(** [sorted] keeps the elements and puts them in ascending order. *)
Lemma insert_perm x l : Permutation (Py.insert x l) (x :: l).
Proof.
  induction l as [| y l IH]; cbn; [reflexivity |].
  destruct (x <? y); [reflexivity |].
  rewrite IH. apply perm_swap.
Qed.

Lemma sorted_perm l : Permutation (Py.sorted l) l.
Proof.
  induction l as [| x l IH]; cbn; [constructor |].
  rewrite insert_perm. now constructor.
Qed.

Lemma sorted_length l : List.length (Py.sorted l) = List.length l.
Proof. apply Permutation_length, sorted_perm. Qed.

Lemma insert_ascending x l :
  LocallySorted Z.le l -> LocallySorted Z.le (Py.insert x l).
Proof.
  induction 1 as [| y | y z l Hl IH Hyz]; cbn.
  - constructor.
  - destruct (Z.ltb_spec x y); repeat constructor; lia.
  - destruct (Z.ltb_spec x y) as [Hxy | Hxy].
    + repeat constructor; try assumption; lia.
    + cbn in IH. destruct (Z.ltb_spec x z) as [Hxz | Hxz].
      * repeat constructor; try assumption; lia.
      * constructor; assumption.
Qed.

Lemma sorted_ascending l : LocallySorted Z.le (Py.sorted l).
Proof.
  induction l as [| x l IH]; cbn; [constructor |].
  now apply insert_ascending.
Qed.

Lemma bytes_eqb_eq a b : Py.bytes_eqb a b = true <-> a = b.
Proof.
  revert b. induction a as [| x a IH]; intros [| y b]; cbn;
    try (split; [discriminate | discriminate]); [tauto |].
  rewrite andb_true_iff, IH. split.
  - intros [Hxy ->]. now rewrite (Byte.byte_dec_bl _ _ Hxy).
  - intros H. inversion H; subst. split; [now apply Byte.byte_dec_lb | reflexivity].
Qed.

Lemma contains_bytes_In x l :
  Py.contains Py.bytes_eqb x l = true <-> In x l.
Proof.
  unfold Py.contains. rewrite existsb_exists. split.
  - intros [y [Hin Heq]]. apply bytes_eqb_eq in Heq. now subst.
  - intros Hin. exists x. split; [assumption | now apply bytes_eqb_eq].
Qed.

(* ================================================================= *)
(** ** The manifest *)

(** What the templates expand to for subject [s]. *)
Definition gm_path (dartel_version : bool) (s : Z) : string :=
  "OAS1_" ++ Py.fmt_04d s ++ "_MR1/"
  ++ (if dartel_version then "mwrc1" else "mwc1")
  ++ "OAS1_" ++ Py.fmt_04d s ++ "_MR1_mpr_anon_fslswapdim_bet.nii.gz".

Definition wm_path (dartel_version : bool) (s : Z) : string :=
  "OAS1_" ++ Py.fmt_04d s ++ "_MR1/"
  ++ (if dartel_version then "mwrc2" else "mwc2")
  ++ "OAS1_" ++ Py.fmt_04d s ++ "_MR1_mpr_anon_fslswapdim_bet.nii.gz".

Definition entries_of (path : Z -> string) (url_images : string)
           (dartel_version : bool) : list entry :=
  map (fun s => (path s, url_images, [("uncompress", true)]))
      (available_subjects dartel_version).

Lemma percent_gm_template d s :
  Py.percent (gm_template d) [s; s] = Ok (gm_path d s).
Proof. destruct d; reflexivity. Qed.

Lemma percent_wm_template d s :
  Py.percent (wm_template d) [s; s] = Ok (wm_path d s).
Proof. destruct d; reflexivity. Qed.

Lemma comprehension_gm d url_images :
  comprehension (gm_template d) url_images d
  = Ok (entries_of (gm_path d) url_images d).
Proof.
  unfold comprehension, entries_of. apply rmap_total.
  intros s. now rewrite percent_gm_template.
Qed.

Lemma comprehension_wm d url_images :
  comprehension (wm_template d) url_images d
  = Ok (entries_of (wm_path d) url_images d).
Proof.
  unfold comprehension, entries_of. apply rmap_total.
  intros s. now rewrite percent_wm_template.
Qed.

Lemma length_entries_of path url_images d :
  List.length (entries_of path url_images d)
  = List.length (available_subjects d).
Proof. unfold entries_of. apply length_map. Qed.

Lemma length_available_subjects d :
  List.length (available_subjects d) = if d then 403%nat else 414%nat.
Proof. destruct d; vm_compute; reflexivity. Qed.

(** The manifest is always built, and it is made of the two truncated
    per-subject lists followed by the two singletons. *)
Lemma build_file_names_eq n d url :
  let u := pick_urls url d in
  let gm :=
    Py.slice None (Some n)
             (Py.slice None (Some n)
                       (entries_of (gm_path d) (url_images u) d)) in
  let wm :=
    Py.slice None (Some n) (entries_of (wm_path d) (url_images u) d) in
  build_file_names n d url
  = Ok (Manifest gm wm
                 (gm ++ wm ++ file_names_extvars (url_csv u)
                     ++ file_names_dua (url_dua u))%list).
Proof.
  unfold build_file_names, file_names_gm, file_names_wm.
  rewrite comprehension_gm, comprehension_wm. reflexivity.
Qed.

Lemma build_file_names_total n d url :
  exists m, build_file_names n d url = Ok m.
Proof. eexists. apply build_file_names_eq. Qed.

(** The lengths of the two per-subject lists of the manifest. *)
Lemma manifest_lengths n d url m :
  0 <= n ->
  build_file_names n d url = Ok m ->
  List.length (manifest_gm m)
  = Nat.min (Z.to_nat n) (List.length (available_subjects d))
  /\ List.length (manifest_wm m)
     = Nat.min (Z.to_nat n) (List.length (available_subjects d))
  /\ List.length (file_names m)
     = (List.length (manifest_gm m) + List.length (manifest_wm m) + 2)%nat.
Proof.
  intros Hn Hm. pose proof (build_file_names_eq n d url) as H. cbv zeta in H.
  rewrite Hm in H. injection H as ->. cbn [manifest_gm manifest_wm file_names].
  rewrite !length_app, !length_slice_to, !length_entries_of by assumption.
  cbn [file_names_extvars file_names_dua List.length]. lia.
Qed.

(** Up to the number of subjects that the enumeration yields, both lists
    have the requested length. *)
Lemma manifest_lengths_exact n (d : bool) url m :
  1 <= n <= (if d then 403 else 414) ->
  build_file_names n d url = Ok m ->
  Z.of_nat (List.length (manifest_gm m)) = n
  /\ Z.of_nat (List.length (manifest_wm m)) = n.
Proof.
  intros Hn Hm.
  destruct (manifest_lengths n d url m) as (Hgm & Hwm & _);
    [lia | assumption |].
  rewrite Hgm, Hwm, length_available_subjects. destruct d; lia.
Qed.

(** Five subjects of the DARTEL variant from the public URLs: twelve
    entries, the first of which is the gray-matter map of subject 1. *)
Example manifest_of_five :
  exists m,
    build_file_names 5 true None = Ok m
    /\ List.length (file_names m) = 12%nat
    /\ List.length (manifest_gm m) = 5%nat
    /\ List.length (manifest_wm m) = 5%nat
    /\ Py.getitem (map (fun e => fst (fst e)) (file_names m)) 0
       = Ok "OAS1_0001_MR1/mwrc1OAS1_0001_MR1_mpr_anon_fslswapdim_bet.nii.gz".
Proof.
  eexists. split; [vm_compute; reflexivity |].
  repeat split; vm_compute; reflexivity.
Qed.

(* ================================================================= *)
(** ** The number of subjects *)

Lemma percent_incorrect n :
  Py.percent "Incorrect number of subjects (%d)" [n]
  = Ok ("Incorrect number of subjects (" ++ Py.fmt_d n ++ ")").
Proof. reflexivity. Qed.

(** Unset: the literal of line 107. *)
Lemma check_n_subjects_unset d tr :
  check_n_subjects None d tr = (Ok (cap d), tr).
Proof. destruct d; reflexivity. Qed.

(** Within bounds: the count is kept. *)
Lemma check_n_subjects_kept n d tr :
  1 <= n <= cap d -> check_n_subjects (Some n) d tr = (Ok n, tr).
Proof.
  intros Hn. unfold check_n_subjects, default_n_subjects, cap in *.
  destruct d.
  - destruct (Z.gtb_spec n 403) as [Hgt | _]; [lia |].
    unfold bind, ret. destruct (Z.ltb_spec n 1); [lia | reflexivity].
  - destruct (Z.gtb_spec n 415) as [Hgt | _]; [lia |].
    unfold bind, ret. destruct (Z.ltb_spec n 1); [lia | reflexivity].
Qed.

(** Below one: [ValueError], and nothing is added to the trace. *)
Lemma check_n_subjects_below n d tr :
  n < 1 ->
  check_n_subjects (Some n) d tr
  = (Raise (ValueError ("Incorrect number of subjects ("
                          ++ Py.fmt_d n ++ ")")), tr).
Proof.
  intros Hn. unfold check_n_subjects, default_n_subjects.
  destruct d.
  - destruct (Z.gtb_spec n 403) as [Hgt | _]; [lia |].
    unfold bind, ret. destruct (Z.ltb_spec n 1); [| lia].
    unfold lift. rewrite percent_incorrect. reflexivity.
  - destruct (Z.gtb_spec n 415) as [Hgt | _]; [lia |].
    unfold bind, ret. destruct (Z.ltb_spec n 1); [| lia].
    unfold lift. rewrite percent_incorrect. reflexivity.
Qed.

(** Above the cap: the name [warnings] is evaluated first, and the module
    does not bind it. *)
Lemma check_n_subjects_above n d tr :
  cap d < n ->
  check_n_subjects (Some n) d tr = (Raise (NameError "warnings"), tr).
Proof.
  intros Hn. unfold check_n_subjects, default_n_subjects, cap in *.
  destruct d.
  - destruct (Z.gtb_spec n 403) as [_ | Hle]; [| lia]. reflexivity.
  - destruct (Z.gtb_spec n 415) as [_ | Hle]; [| lia]. reflexivity.
Qed.

(** Whenever the check returns, the count is within bounds and the trace
    is as it was. *)
Lemma check_n_subjects_ok req d tr n tr' :
  check_n_subjects req d tr = (Ok n, tr') ->
  tr' = tr /\ 1 <= n <= cap d /\ n = default_n_subjects req d.
Proof.
  destruct req as [k |].
  - destruct (Z.lt_ge_cases k 1) as [Hlow | Hlow].
    + rewrite check_n_subjects_below by assumption. discriminate.
    + destruct (Z.lt_ge_cases (cap d) k) as [Hhigh | Hhigh].
      * rewrite check_n_subjects_above by assumption. discriminate.
      * rewrite check_n_subjects_kept by lia.
        intros H. injection H as <- <-. cbn. repeat split; lia.
  - rewrite check_n_subjects_unset. intros H. injection H as <- <-.
    repeat split; destruct d; cbn; lia.
Qed.

(* ================================================================= *)
(** ** Splitting the fetched paths *)

Lemma split_files_eq (k : nat) (front : list string) (c a : string) :
  let files := (front ++ [c; a])%list in
  split_files (Z.of_nat k) files
  = Ok (Split (firstn k files) (firstn k (skipn k files)) c a).
Proof.
  cbv zeta. unfold split_files.
  rewrite getitem_last_but_one, getitem_last. cbn [rbind].
  rewrite slice_to, slice_next by lia.
  now rewrite Nat2Z.id.
Qed.

Lemma split_files_ok n files parts :
  split_files n files = Ok parts ->
  gm_maps parts = Py.slice None (Some n) files
  /\ wm_maps parts = Py.slice (Some n) (Some (2 * n)) files.
Proof.
  unfold split_files.
  destruct (Py.getitem files (-2)) as [c |]; [| discriminate].
  destruct (Py.getitem files (-1)) as [a |]; [| discriminate].
  cbn [rbind]. intros H. injection H as <-. now split.
Qed.

(** When the fetcher answers in the order of a manifest that holds [n]
    entries of each kind, the split gives every kind its own paths. *)
Lemma split_files_aligned (gm wm : list string) (c a : string) :
  List.length wm = List.length gm ->
  split_files (Z.of_nat (List.length gm)) (gm ++ wm ++ [c; a])
  = Ok (Split gm wm c a).
Proof.
  intros Hlen.
  replace (gm ++ wm ++ [c; a])%list with ((gm ++ wm) ++ [c; a])%list
    by now rewrite <- app_assoc.
  pose proof (split_files_eq (List.length gm) (gm ++ wm) c a) as H.
  cbv zeta in H. rewrite H. f_equal.
  rewrite <- !app_assoc.
  rewrite firstn_app, firstn_all, Nat.sub_diag, firstn_O, app_nil_r.
  rewrite skipn_app, skipn_all, Nat.sub_diag. cbn [skipn app].
  rewrite <- Hlen.
  rewrite firstn_app, firstn_all, Nat.sub_diag, firstn_O, app_nil_r.
  reflexivity.
Qed.

(* ================================================================= *)
(** ** The whole call *)

Section FetchFacts.

Variable fetcher_fetch :
  option string -> list entry -> bool -> bool -> Z -> result (list string).
Variable recfromcsv : string -> result recarray.

(** A call that returns went through every step. *)
Lemma fetch_ok data_dir req d url resume force verbose tr b tr' :
  fetch fetcher_fetch recfromcsv data_dir req d url resume force verbose tr
  = (Ok b, tr') ->
  exists n m files parts csv_data kept,
    check_n_subjects req d tr = (Ok n, tr)
    /\ build_file_names n d url = Ok m
    /\ fetcher_fetch data_dir (file_names m) resume force verbose = Ok files
    /\ split_files n files = Ok parts
    /\ recfromcsv (ext_vars_file parts) = Ok csv_data
    /\ keep_selected csv_data (gm_maps parts) = Ok kept
    /\ b = mkBunch (gm_maps parts) (wm_maps parts) kept (dua_file parts)
    /\ tr' = (tr ++ [Fetched (file_names m) resume force verbose;
                     CsvRead (ext_vars_file parts)])%list.
Proof.
  unfold fetch. unfold bind at 1.
  destruct (check_n_subjects req d tr) as [[n | e] tr1] eqn:Hcheck;
    [| discriminate].
  destruct (check_n_subjects_ok _ _ _ _ _ Hcheck) as (-> & _ & _).
  unfold bind, global, lift, emit, ret. cbn [Py.contains existsb module_globals].
  cbn -[build_file_names split_files keep_selected].
  destruct (build_file_names n d url) as [m |] eqn:Hm; [| discriminate].
  destruct (fetcher_fetch data_dir (file_names m) resume force verbose)
    as [files |] eqn:Hfiles; [| discriminate].
  destruct (split_files n files) as [parts |] eqn:Hparts; [| discriminate].
  destruct (recfromcsv (ext_vars_file parts)) as [csv_data |] eqn:Hcsv;
    [| discriminate].
  destruct (keep_selected csv_data (gm_maps parts)) as [kept |] eqn:Hkept;
    [| discriminate].
  intros H. injection H as <- <-.
  exists n, m, files, parts, csv_data, kept.
  repeat split; try assumption.
  now rewrite <- app_assoc.
Qed.

(** A call whose count the check refuses stops there. *)
Lemma fetch_check_raises data_dir req d url resume force verbose tr e tr' :
  check_n_subjects req d tr = (Raise e, tr') ->
  fetch fetcher_fetch recfromcsv data_dir req d url resume force verbose tr
  = (Raise e, tr').
Proof.
  intros Hcheck. unfold fetch. unfold bind at 1. now rewrite Hcheck.
Qed.

End FetchFacts.

(** [local_fetcher] returns one path per entry. *)
Lemma local_fetcher_one_per_entry data_dir file_names resume force verbose files :
  local_fetcher data_dir file_names resume force verbose = Ok files ->
  List.length files = List.length file_names.
Proof.
  unfold local_fetcher. intros H. injection H as <-. apply length_map.
Qed.

(* ================================================================= *)
(** ** Properties of the call *)

(** C1.  Every call of [fetch] that returns a bundle, whatever the number of
    subjects asked for and whichever the variant, returns as many
    gray-matter paths as white-matter paths, and that number is the count the
    call settled on ([check_n_subjects]).  The fetcher is taken to return
    one local path per entry of the manifest.  [fetch_oasis_vbm] is [fetch]
    with [force] left at [false]. *)
Theorem fetch_bundle_lengths
        (fetcher_fetch :
           option string -> list entry -> bool -> bool -> Z ->
           result (list string))
        (recfromcsv : string -> result recarray)
        data_dir req d url resume force verbose tr b tr' :
  (forall dd fn r f v files,
      fetcher_fetch dd fn r f v = Ok files ->
      List.length files = List.length fn) ->
  fetch fetcher_fetch recfromcsv data_dir req d url resume force verbose tr
  = (Ok b, tr') ->
  exists n_used,
    check_n_subjects req d tr = (Ok n_used, tr)
    /\ Z.of_nat (List.length (gray_matter_maps b)) = n_used
    /\ Z.of_nat (List.length (white_matter_maps b)) = n_used.
Proof.
  intros Hcontract Hrun.
  destruct (fetch_ok _ _ _ _ _ _ _ _ _ _ _ _ Hrun)
    as (n & m & files & parts & csv_data & kept
        & Hcheck & Hm & Hfiles & Hparts & _ & _ & -> & _).
  exists n. split; [assumption |].
  destruct (check_n_subjects_ok _ _ _ _ _ Hcheck) as (_ & Hn & _).
  destruct (manifest_lengths n d url m) as (Hgm & Hwm & Hall);
    [lia | assumption |].
  apply Hcontract in Hfiles.
  destruct (split_files_ok _ _ _ Hparts) as [Egm Ewm].
  cbn [gray_matter_maps white_matter_maps].
  rewrite Egm, Ewm, slice_to, slice_next by lia.
  rewrite !length_firstn, length_skipn, Hfiles, Hall, Hgm, Hwm.
  rewrite length_available_subjects.
  unfold cap in Hn. destruct d; lia.
Qed.

Lemma fetch_bundle_lengths_witness :
  exists b tr',
    fetch_oasis_vbm local_fetcher ten_rows_csv (Some 3) true None None true 1 []
    = (Ok b, tr')
    /\ Z.of_nat (List.length (gray_matter_maps b)) = 3
    /\ Z.of_nat (List.length (white_matter_maps b)) = 3.
Proof.
  eexists. eexists. split; [vm_compute; reflexivity |].
  edestruct (fetch_bundle_lengths
               local_fetcher ten_rows_csv None (Some 3) true None true false 1 [])
    as (n & Hn & Hgm & Hwm);
    [exact local_fetcher_one_per_entry | vm_compute; reflexivity |].
  vm_compute in Hn. injection Hn as <-.
  split; assumption.
Defined.

(** C2.  At the count 415 of the standard variant, which the check accepts
    as it is, the manifest holds 414 gray-matter and 414 white-matter
    entries, not 415. *)
Theorem manifest_short_at_415 url tr :
  check_n_subjects (Some 415) false tr = (Ok 415, tr)
  /\ exists m,
      build_file_names 415 false url = Ok m
      /\ List.length (manifest_gm m) = 414%nat
      /\ List.length (manifest_wm m) = 414%nat.
Proof.
  split; [apply check_n_subjects_kept; cbn; lia |].
  destruct (build_file_names_total 415 false url) as [m Hm].
  exists m. split; [assumption |].
  destruct (manifest_lengths 415 false url m) as (Hgm & Hwm & _);
    [lia | assumption |].
  rewrite Hgm, Hwm, length_available_subjects. split; reflexivity.
Qed.

(** What the short manifest does to the split at that count, with a fetcher
    that answers in the order of the manifest: the last gray-matter path is
    a white-matter map, and the white-matter paths end with the covariates
    file and the agreement. *)
Example split_misaligned_at_415 :
  exists b tr',
    fetch_oasis_vbm local_fetcher ten_rows_csv (Some 415) false None None true 1 []
    = (Ok b, tr')
    /\ Py.getitem (gray_matter_maps b) (-1)
       = Ok ("/nidata/oasis_vbm/" ++ wm_path false 1)
    /\ Py.getitem (white_matter_maps b) (-2)
       = Ok "/nidata/oasis_vbm/oasis_cross-sectional.csv"
    /\ Py.getitem (white_matter_maps b) (-1)
       = Ok "/nidata/oasis_vbm/data_usage_agreement.txt".
Proof.
  eexists. eexists. split; [vm_compute; reflexivity |].
  repeat split; vm_compute; reflexivity.
Qed.

(** C3.  A count above the cap does not lead to a warning and a clamped
    count: the call raises [NameError] on the name [warnings], which the
    module never imports, before anything else happens. *)
Theorem fetch_above_cap_raises
        (fetcher_fetch :
           option string -> list entry -> bool -> bool -> Z ->
           result (list string))
        (recfromcsv : string -> result recarray)
        data_dir url resume force verbose tr :
  fetch fetcher_fetch recfromcsv data_dir (Some 404) true url
        resume force verbose tr
  = (Raise (NameError "warnings"), tr)
  /\ fetch fetcher_fetch recfromcsv data_dir (Some 416) false url
           resume force verbose tr
     = (Raise (NameError "warnings"), tr).
Proof.
  split; apply fetch_check_raises, check_n_subjects_above; cbn; lia.
Qed.

(** C4.  For the standard variant the numbers 1..456 without the 41 missing
    subjects and the outlier 390 are 414 subjects, fewer than the cap 415;
    so neither per-subject list of the manifest ever has more than 414
    entries, and at the count 415 each has 414. *)
Theorem standard_variant_has_414_subjects :
  List.length (Py.range 1 457) = 456%nat
  /\ List.length missing_subjects = 41%nat
  /\ removed_outliers false = [390]
  /\ List.length (available_subjects false) = 414%nat
  /\ 414 < cap false
  /\ (forall n url,
         exists m,
           build_file_names n false url = Ok m
           /\ (List.length (manifest_gm m) <= 414)%nat
           /\ (List.length (manifest_wm m) <= 414)%nat)
  /\ (forall url,
         exists m,
           build_file_names 415 false url = Ok m
           /\ List.length (manifest_gm m) = 414%nat
           /\ List.length (manifest_wm m) = 414%nat).
Proof.
  repeat split; try (vm_compute; reflexivity).
  - intros n url. eexists. split; [apply build_file_names_eq |].
    cbn [manifest_gm manifest_wm]. split.
    + etransitivity; [apply length_slice_le |].
      etransitivity; [apply length_slice_le |].
      now rewrite length_entries_of, length_available_subjects.
    + etransitivity; [apply length_slice_le |].
      now rewrite length_entries_of, length_available_subjects.
  - intros url. eexists. split; [apply build_file_names_eq |].
    cbn [manifest_gm manifest_wm].
    rewrite !length_slice_to, !length_entries_of, length_available_subjects
      by lia.
    split; reflexivity.
Qed.


(** C6.  A count below one, once an unset count has been replaced by its
    default, makes the call raise [ValueError] with the trace as it was: the
    fetcher has not been called and the covariates file has not been
    read. *)
Theorem fetch_rejects_count_below_one
        (fetcher_fetch :
           option string -> list entry -> bool -> bool -> Z ->
           result (list string))
        (recfromcsv : string -> result recarray)
        data_dir req d url resume force verbose tr :
  default_n_subjects req d < 1 ->
  fetch fetcher_fetch recfromcsv data_dir req d url resume force verbose tr
  = (Raise (ValueError ("Incorrect number of subjects ("
                          ++ Py.fmt_d (default_n_subjects req d) ++ ")")),
     tr).
Proof.
  intros Hlow. apply fetch_check_raises.
  destruct req as [n |]; cbn in *.
  - now apply check_n_subjects_below.
  - destruct d; lia.
Qed.

Lemma fetch_rejects_count_below_one_witness :
  default_n_subjects (Some 0) true < 1
  /\ fetch_oasis_vbm local_fetcher ten_rows_csv (Some 0) true None None true 1 []
     = (Raise (ValueError "Incorrect number of subjects (0)"), []).
Proof.
  split; [cbn; lia |].
  apply (fetch_rejects_count_below_one
           local_fetcher ten_rows_csv None (Some 0) true None true false 1 []).
  cbn; lia.
Defined.

(** C7.  The outlier list of the DARTEL variant holds 12 subject numbers,
    one fewer than the 13 outliers that the docstring and the comment of the
    code announce; that of the standard variant holds 1.  The merged and
    sorted exclusion list has [len(missing_subjects) + 12] entries for the
    DARTEL variant and [len(missing_subjects) + 1] for the standard
    variant. *)
Theorem exclusion_list_sizes :
  List.length (removed_outliers true) = 12%nat
  /\ List.length (removed_outliers false) = 1%nat
  /\ List.length (missing_and_removed true)
     = (List.length missing_subjects + 12)%nat
  /\ List.length (missing_and_removed false)
     = (List.length missing_subjects + 1)%nat.
Proof.
  unfold missing_and_removed.
  rewrite !sorted_length, !length_app. repeat split.
Qed.

(** The 13 outliers of the DARTEL variant that the documentation of the
    code speaks of are not all in the list. *)
Lemma dartel_outliers_are_not_13 :
  ~ (List.length (removed_outliers true) = 13%nat
     /\ List.length (removed_outliers false) = 1%nat
     /\ List.length (missing_and_removed true)
        = (List.length missing_subjects + 12)%nat
     /\ List.length (missing_and_removed false)
        = (List.length missing_subjects + 1)%nat).
Proof. intros [H _]. cbn in H. discriminate H. Qed.

(** The exclusion list is the two lists merged, in ascending order, and no
    outlier is also a missing subject. *)
Lemma missing_and_removed_sorted d :
  Permutation (missing_and_removed d) (missing_subjects ++ removed_outliers d)
  /\ LocallySorted Z.le (missing_and_removed d)
  /\ forallb (fun s => negb (Py.contains Z.eqb s missing_subjects))
             (removed_outliers d) = true.
Proof.
  split; [apply sorted_perm |]. split; [apply sorted_ascending |].
  destruct d; reflexivity.
Qed.

(** The last character of a string that ends with a known suffix. *)
Lemma rev_onto_app acc s t :
  Py.rev_onto acc (s ++ t) = Py.rev_onto (Py.rev_onto acc s) t.
Proof.
  revert acc. induction s as [| c s IH]; intros acc; cbn; [reflexivity |].
  apply IH.
Qed.

Lemma str_rev_app s t : Py.str_rev (s ++ t) = Py.rev_onto (Py.str_rev s) t.
Proof. apply rev_onto_app. Qed.

(** C8.  With an override [X] the three URLs of a variant are [X] followed
    by the fixed suffixes; without an override they are the public ones,
    and no override yields a public URL. *)
Theorem pick_urls_override (X : string) (d : bool) :
  pick_urls (Some X) d
  = Urls (X ++ (if d then "/archive_dartel.tgz" else "/archive.tgz"))
         (X ++ "/oasis_cross-sectional.csv")
         (X ++ "/data_usage_agreement.txt")
  /\ pick_urls None d
     = Urls
         (if d
          then "https://www.nitrc.org/frs/download.php/6364/archive_dartel.tgz?i_agree=1&download_now=1"
          else "https://www.nitrc.org/frs/download.php/6359/archive.tgz?i_agree=1&download_now=1")
         "https://www.nitrc.org/frs/download.php/6348/oasis_cross-sectional.csv?i_agree=1&download_now=1"
         "https://www.nitrc.org/frs/download.php/6349/data_usage_agreement.txt?i_agree=1&download_now=1"
  /\ url_images (pick_urls (Some X) d) <> url_images (pick_urls None d)
  /\ url_csv (pick_urls (Some X) d) <> url_csv (pick_urls None d)
  /\ url_dua (pick_urls (Some X) d) <> url_dua (pick_urls None d).
Proof.
  split; [destruct d; reflexivity |].
  split; [destruct d; reflexivity |].
  repeat split; destruct d; cbn [pick_urls url_images url_csv url_dua];
    intros H; apply (f_equal Py.str_rev) in H;
    rewrite str_rev_app in H; cbn in H; discriminate H.
Qed.

(** C9.  An unset count becomes the cap of the variant: 403 for the DARTEL
    variant, 415 for the standard one. *)
Theorem unset_count_is_cap tr :
  check_n_subjects None true tr = (Ok 403, tr)
  /\ check_n_subjects None false tr = (Ok 415, tr)
  /\ (forall d, check_n_subjects None d tr = (Ok (cap d), tr)).
Proof.
  repeat split. intros d. apply check_n_subjects_unset.
Qed.

(* ================================================================= *)
(** ** The covariates of the selected subjects *)

(** For every gray-matter entry of either manifest, stored under a data
    directory, the id derived from the local path is the id the covariates
    table gives the subject. *)
Lemma subject_id_of_gm_path d s :
  In s (available_subjects d) ->
  subject_id_of ("/nidata/oasis_vbm/" ++ gm_path d s) = Ok (table_id s).
Proof.
  revert s. apply ext_in_map. destruct d; vm_compute; reflexivity.
Qed.

(** A path whose base name does not hold [OAS1] has no id: the second piece
    of the split does not exist. *)
Example subject_id_of_other_path :
  subject_id_of "/nidata/oasis_vbm/oasis_cross-sectional.csv"
  = Raise (IndexError "list index out of range").
Proof. reflexivity. Qed.

(** [no_sep s]: there is no [/] in [s]. *)
Fixpoint no_sep (s : string) : bool :=
  match s with
  | EmptyString => true
  | String c s' => negb (Ascii.eqb c "/") && no_sep s'
  end.





Lemma append_assoc_string (s t u : string) : (s ++ t) ++ u = s ++ t ++ u.
Proof. induction s as [| c s IH]; cbn; [reflexivity | now rewrite IH]. Qed.

Lemma after_last_sep_no_sep name cand :
  no_sep name = true -> os_path.after_last_sep cand name = cand.
Proof.
  revert cand. induction name as [| c name IH]; intros cand; cbn;
    [reflexivity |].
  intros H. apply andb_true_iff in H as [Hc Hname].
  apply negb_true_iff in Hc. rewrite Hc. now apply IH.
Qed.

(** The base name of a path whose last component has no separator. *)
Lemma basename_app dir name :
  no_sep name = true -> os_path.basename (dir ++ "/" ++ name) = name.
Proof.
  intros Hname. unfold os_path.basename.
  generalize (dir ++ "/" ++ name) at 1.
  induction dir as [| c dir IH]; intros cand; cbn.
  - now apply after_last_sep_no_sep.
  - destruct (Ascii.eqb c "/"); apply IH.
Qed.






(** The rows kept from a one-dimensional table that has rows, once the ids
    are known. *)
Lemma keep_selected_one_dim rows gm_maps ids :
  rows <> [] ->
  actual_subjects_ids gm_maps = Ok ids ->
  keep_selected (OneDim rows) gm_maps
  = Ok (filter (fun row => Py.contains Py.bytes_eqb (id row) ids) rows).
Proof.
  intros Hrows Hids. unfold keep_selected, subject_mask, iter_ids, select_rows.
  rewrite Hids. cbn [rbind]. rewrite map_map.
  destruct rows as [| row rows]; [congruence |].
  rewrite <- take_mask_map. cbn [map np.asarray np.index rbind].
  cbn [List.length]. rewrite length_map, Nat.eqb_refl. reflexivity.
Qed.



(** The two tables the filtering cannot handle, with ids that can be
    derived: a single record cannot be iterated, and the mask of a table
    without rows is not an index. *)
Lemma keep_selected_degenerate gm_maps ids row :
  actual_subjects_ids gm_maps = Ok ids ->
  keep_selected (ZeroDim row) gm_maps
  = Raise (TypeError "iteration over a 0-d array")
  /\ keep_selected (OneDim []) gm_maps
     = Raise (IndexError
                "arrays used as indices must be of integer (or boolean) type").
Proof.
  intros Hids. unfold keep_selected. rewrite Hids. split; reflexivity.
Qed.

(** The whole call on three subjects keeps the rows of subjects 1, 2, 3. *)
Example fetch_three_subjects :
  exists b tr',
    fetch_oasis_vbm local_fetcher ten_rows_csv (Some 3) true None None true 1 []
    = (Ok b, tr')
    /\ gray_matter_maps b
       = map (fun s => "/nidata/oasis_vbm/" ++ gm_path true s) [1; 2; 3]
    /\ white_matter_maps b
       = map (fun s => "/nidata/oasis_vbm/" ++ wm_path true s) [1; 2; 3]
    /\ ext_vars b = table_of [1; 2; 3]
    /\ data_usage_agreement b = "/nidata/oasis_vbm/data_usage_agreement.txt".
Proof.
  eexists. eexists. split; [vm_compute; reflexivity |].
  repeat split; vm_compute; reflexivity.
Qed.

(* ================================================================= *)
(** ** Further properties: the count, the trace, failures *)

(** The check never touches the trace, whatever it answers. *)
Lemma check_n_subjects_trace req d tr r tr' :
  check_n_subjects req d tr = (r, tr') -> tr' = tr.
Proof.
  destruct req as [k |].
  - destruct (Z.lt_ge_cases k 1) as [Hlow | Hlow].
    + rewrite check_n_subjects_below by assumption. now intros [= _ <-].
    + destruct (Z.lt_ge_cases (cap d) k) as [Hhigh | Hhigh].
      * rewrite check_n_subjects_above by assumption. now intros [= _ <-].
      * rewrite check_n_subjects_kept by lia. now intros [= _ <-].
  - rewrite check_n_subjects_unset. now intros [= _ <-].
Qed.

(** X1.  The check returns a count exactly when the count asked for (or its
    default) lies between 1 and the cap of the variant; the count returned is
    then the one asked for, and nothing is added to the trace. *)
Theorem check_n_subjects_returns_iff req d tr n tr' :
  check_n_subjects req d tr = (Ok n, tr')
  <-> (tr' = tr
       /\ n = default_n_subjects req d
       /\ 1 <= default_n_subjects req d <= cap d).
Proof.
  split.
  - intros H. destruct (check_n_subjects_ok _ _ _ _ _ H) as (-> & Hn & ->).
    repeat split; lia.
  - intros (-> & -> & Hn). destruct req as [k |]; cbn in *.
    + now apply check_n_subjects_kept.
    + apply check_n_subjects_unset.
Qed.

Section FetchStages.

Variable fetcher_fetch :
  option string -> list entry -> bool -> bool -> Z -> result (list string).
Variable recfromcsv : string -> result recarray.

(** Once the count is accepted, the call is the chain of its stages; each
    stage that raises ends the call with the trace built so far. *)
Lemma fetch_stages data_dir req d url resume force verbose tr n :
  check_n_subjects req d tr = (Ok n, tr) ->
  fetch fetcher_fetch recfromcsv data_dir req d url resume force verbose tr
  = match build_file_names n d url with
    | Raise e => (Raise e, tr)
    | Ok m =>
        let tr1 := (tr ++ [Fetched (file_names m) resume force verbose])%list in
        match fetcher_fetch data_dir (file_names m) resume force verbose with
        | Raise e => (Raise e, tr1)
        | Ok files =>
            match split_files n files with
            | Raise e => (Raise e, tr1)
            | Ok parts =>
                let tr2 := (tr1 ++ [CsvRead (ext_vars_file parts)])%list in
                match recfromcsv (ext_vars_file parts) with
                | Raise e => (Raise e, tr2)
                | Ok csv_data =>
                    match keep_selected csv_data (gm_maps parts) with
                    | Raise e => (Raise e, tr2)
                    | Ok kept =>
                        (Ok (mkBunch (gm_maps parts) (wm_maps parts) kept
                                     (dua_file parts)), tr2)
                    end
                end
            end
        end
    end.
Proof.
  intros Hcheck. unfold fetch. unfold bind at 1. rewrite Hcheck.
  unfold bind, global, lift, emit, ret.
  cbn -[build_file_names split_files keep_selected].
  destruct (build_file_names n d url) as [m |]; [| reflexivity].
  destruct (fetcher_fetch data_dir (file_names m) resume force verbose)
    as [files |]; [| reflexivity].
  destruct (split_files n files) as [parts |]; [| reflexivity].
  destruct (recfromcsv (ext_vars_file parts)) as [csv_data |];
    [| reflexivity].
  destruct (keep_selected csv_data (gm_maps parts)) as [kept |]; reflexivity.
Qed.

End FetchStages.

(** X2.  Whatever its arguments and whatever its collaborators answer,
    [fetch_oasis_vbm] calls the fetcher at most once, always with [force]
    off and with the caller's [resume] and [verbose]; it reads the covariates
    file at most once, after the fetcher; and it never records a warning. *)
Theorem fetch_oasis_vbm_trace
        (fetcher_fetch :
           option string -> list entry -> bool -> bool -> Z ->
           result (list string))
        (recfromcsv : string -> result recarray)
        n_subjects d data_dir url resume verbose tr :
  let tr' :=
    snd (fetch_oasis_vbm fetcher_fetch recfromcsv n_subjects d data_dir url
                         resume verbose tr) in
  tr' = tr
  \/ (exists fn, tr' = (tr ++ [Fetched fn resume false verbose])%list)
  \/ (exists fn path,
         tr' = (tr ++ [Fetched fn resume false verbose; CsvRead path])%list).
Proof.
  cbv zeta. unfold fetch_oasis_vbm.
  destruct (check_n_subjects n_subjects d tr) as [[n | e] tr1] eqn:Hcheck.
  - pose proof (check_n_subjects_trace _ _ _ _ _ Hcheck) as ->.
    rewrite (fetch_stages _ _ _ _ _ _ _ _ _ _ _ Hcheck). cbv zeta.
    destruct (build_file_names n d url) as [m |]; [| now left].
    destruct (fetcher_fetch data_dir (file_names m) resume false verbose)
      as [files |]; [| right; left; now eexists].
    destruct (split_files n files) as [parts |];
      [| right; left; now eexists].
    right; right. exists (file_names m), (ext_vars_file parts).
    rewrite <- app_assoc.
    destruct (recfromcsv (ext_vars_file parts)) as [csv_data |];
      [| reflexivity].
    destruct (keep_selected csv_data (gm_maps parts)); reflexivity.
  - pose proof (check_n_subjects_trace _ _ _ _ _ Hcheck) as ->.
    rewrite (fetch_check_raises _ _ _ _ _ _ _ _ _ _ _ _ Hcheck). now left.
Qed.

(** A fetcher that cannot reach the archive, one that answers with a single
    path, and a reader that rejects the file. *)
Definition offline_fetcher (data_dir : option string) (file_names : list entry)
           (resume force : bool) (verbose : Z) : result (list string) :=
  Raise (External "retrieval failed").

Definition one_path_fetcher (data_dir : option string)
           (file_names : list entry) (resume force : bool) (verbose : Z)
  : result (list string) :=
  Ok ["/nidata/oasis_vbm/data_usage_agreement.txt"].

Definition failing_csv (path : string) : result recarray :=
  Raise (External "malformed covariates file").

(** X3.  With an accepted count, an exception of the fetcher leaves [fetch]
    as it is, after the one call of the fetcher on the manifest and before
    the covariates file is read. *)
Theorem fetch_fetcher_error
        (fetcher_fetch :
           option string -> list entry -> bool -> bool -> Z ->
           result (list string))
        (recfromcsv : string -> result recarray)
        data_dir req d url resume force verbose tr m e :
  1 <= default_n_subjects req d <= cap d ->
  build_file_names (default_n_subjects req d) d url = Ok m ->
  fetcher_fetch data_dir (file_names m) resume force verbose = Raise e ->
  fetch fetcher_fetch recfromcsv data_dir req d url resume force verbose tr
  = (Raise e, (tr ++ [Fetched (file_names m) resume force verbose])%list).
Proof.
  intros Hn Hm Hfetch.
  rewrite (fetch_stages _ _ _ _ _ _ _ _ _ _ (default_n_subjects req d)).
  - now rewrite Hm, Hfetch.
  - destruct req as [k |]; cbn in *.
    + now apply check_n_subjects_kept.
    + apply check_n_subjects_unset.
Qed.

Lemma fetch_fetcher_error_witness :
  exists m,
    build_file_names 2 true None = Ok m
    /\ fetch offline_fetcher ten_rows_csv None (Some 2) true None true false 1 []
       = (Raise (External "retrieval failed"),
          [Fetched (file_names m) true false 1]).
Proof.
  eexists. split; [vm_compute; reflexivity |].
  apply (fetch_fetcher_error offline_fetcher ten_rows_csv
                             None (Some 2) true None true false 1 []).
  - cbn; lia.
  - vm_compute; reflexivity.
  - reflexivity.
Defined.

Lemma getitem_too_short {A} (l : list A) :
  (List.length l < 2)%nat ->
  Py.getitem l (-2) = Raise (IndexError "list index out of range").
Proof.
  intros Hlen. unfold Py.getitem. cbn [Z.ltb Z.compare].
  destruct (Z.ltb_spec (Z.of_nat (List.length l) + -2) 0); [reflexivity | lia].
Qed.

Lemma split_files_tail n (front : list string) (c a : string) :
  0 <= n ->
  split_files n (front ++ [c; a])
  = Ok (Split (firstn (Z.to_nat n) (front ++ [c; a]))
              (firstn (Z.to_nat n) (skipn (Z.to_nat n) (front ++ [c; a])))
              c a).
Proof.
  intros Hn. pose proof (split_files_eq (Z.to_nat n) front c a) as H.
  cbv zeta in H. now rewrite Z2Nat.id in H by assumption.
Qed.

Lemma check_n_subjects_accepts req d tr :
  1 <= default_n_subjects req d <= cap d ->
  check_n_subjects req d tr = (Ok (default_n_subjects req d), tr).
Proof.
  intros Hn. destruct req as [k |]; cbn in *.
  - now apply check_n_subjects_kept.
  - apply check_n_subjects_unset.
Qed.

(** X4.  With an accepted count, a fetcher that answers with fewer than two
    paths makes [fetch] raise [IndexError] at [files[-2]]: the covariates
    file is not read and no bundle is returned. *)
Theorem fetch_short_answer
        (fetcher_fetch :
           option string -> list entry -> bool -> bool -> Z ->
           result (list string))
        (recfromcsv : string -> result recarray)
        data_dir req d url resume force verbose tr m files :
  1 <= default_n_subjects req d <= cap d ->
  build_file_names (default_n_subjects req d) d url = Ok m ->
  fetcher_fetch data_dir (file_names m) resume force verbose = Ok files ->
  (List.length files < 2)%nat ->
  fetch fetcher_fetch recfromcsv data_dir req d url resume force verbose tr
  = (Raise (IndexError "list index out of range"),
     (tr ++ [Fetched (file_names m) resume force verbose])%list).
Proof.
  intros Hn Hm Hfetch Hlen.
  rewrite (fetch_stages _ _ _ _ _ _ _ _ _ _ _
                        (check_n_subjects_accepts _ _ _ Hn)).
  rewrite Hm, Hfetch. cbv zeta. unfold split_files.
  now rewrite getitem_too_short.
Qed.

Lemma fetch_short_answer_witness :
  exists m,
    build_file_names 2 true None = Ok m
    /\ fetch one_path_fetcher ten_rows_csv None (Some 2) true None
             true false 1 []
       = (Raise (IndexError "list index out of range"),
          [Fetched (file_names m) true false 1]).
Proof.
  eexists. split; [vm_compute; reflexivity |].
  apply (fetch_short_answer one_path_fetcher ten_rows_csv
                            None (Some 2) true None true false 1 []
                            _ ["/nidata/oasis_vbm/data_usage_agreement.txt"]).
  - cbn; lia.
  - vm_compute; reflexivity.
  - reflexivity.
  - cbn; lia.
Defined.

(** X5.  With an accepted count and a fetcher that answers with at least
    two paths, the file handed to [np.recfromcsv] is the last path but one,
    and an exception of the reader leaves [fetch] as it is, after the
    fetcher has been called and the file has been read. *)
Theorem fetch_csv_error
        (fetcher_fetch :
           option string -> list entry -> bool -> bool -> Z ->
           result (list string))
        (recfromcsv : string -> result recarray)
        data_dir req d url resume force verbose tr m front c a e :
  1 <= default_n_subjects req d <= cap d ->
  build_file_names (default_n_subjects req d) d url = Ok m ->
  fetcher_fetch data_dir (file_names m) resume force verbose
  = Ok (front ++ [c; a])%list ->
  recfromcsv c = Raise e ->
  fetch fetcher_fetch recfromcsv data_dir req d url resume force verbose tr
  = (Raise e,
     (tr ++ [Fetched (file_names m) resume force verbose; CsvRead c])%list).
Proof.
  intros Hn Hm Hfetch Hcsv.
  rewrite (fetch_stages _ _ _ _ _ _ _ _ _ _ _
                        (check_n_subjects_accepts _ _ _ Hn)).
  rewrite Hm, Hfetch. cbv zeta.
  rewrite split_files_tail by lia. cbn [ext_vars_file].
  rewrite Hcsv. now rewrite <- app_assoc.
Qed.

Lemma fetch_csv_error_witness :
  exists m,
    build_file_names 1 false None = Ok m
    /\ fetch local_fetcher failing_csv None (Some 1) false None true false 0 []
       = (Raise (External "malformed covariates file"),
          [Fetched (file_names m) true false 0;
           CsvRead "/nidata/oasis_vbm/oasis_cross-sectional.csv"]).
Proof.
  eexists. split; [vm_compute; reflexivity |].
  apply (fetch_csv_error
           local_fetcher failing_csv None (Some 1) false None true false 0 [] _
           ["/nidata/oasis_vbm/" ++ gm_path false 1;
            "/nidata/oasis_vbm/" ++ wm_path false 1]
           "/nidata/oasis_vbm/oasis_cross-sectional.csv"
           "/nidata/oasis_vbm/data_usage_agreement.txt").
  - cbn; lia.
  - vm_compute; reflexivity.
  - vm_compute; reflexivity.
  - reflexivity.
Defined.

(* ================================================================= *)
(** ** Further properties: the manifest *)

(** The entry of subject [s] in a per-subject list. *)
Definition entry_of (path : Z -> string) (url_images : string) (s : Z)
  : entry :=
  (path s, url_images, [("uncompress", true)]).

(** The destination path of an entry. *)
Definition entry_path (e : entry) : string := fst (fst e).

(** [distinctb l]: no string occurs twice in [l]. *)
Fixpoint distinctb (l : list string) : bool :=
  match l with
  | [] => true
  | x :: l' => negb (existsb (String.eqb x) l') && distinctb l'
  end.

(** Every destination path either variant can ask for. *)
Definition all_paths (d : bool) : list string :=
  (map (gm_path d) (available_subjects d)
     ++ map (wm_path d) (available_subjects d)
     ++ ["oasis_cross-sectional.csv"; "data_usage_agreement.txt"])%list.

Section MoreListFacts.

Context {A : Type}.
Implicit Types l a b c : list A.

Lemma slice_to_any l n :
  Py.slice None (Some n) l = firstn (Py.slice_index (List.length l) n) l.
Proof. reflexivity. Qed.

Lemma In_firstn n l x : In x (firstn n l) -> In x l.
Proof.
  intros Hin. rewrite <- (firstn_skipn n l). apply in_or_app. now left.
Qed.

Lemma NoDup_firstn_app n a b : NoDup (a ++ b) -> NoDup (firstn n a ++ b).
Proof.
  revert n. induction a as [| x a IH]; intros n H.
  - now rewrite firstn_nil.
  - destruct n as [| n]; cbn.
    + now apply (NoDup_app_remove_l (x :: a)).
    + cbn in H. inversion H as [| ? ? Hnotin Hrest]; subst. constructor.
      * intros Hin. apply Hnotin.
        apply in_app_or in Hin. apply in_or_app.
        destruct Hin as [Hin | Hin]; [left; now apply In_firstn in Hin | now right].
      * now apply IH.
Qed.

Lemma NoDup_app_firstn n a b c :
  NoDup (a ++ b ++ c) -> NoDup (a ++ firstn n b ++ c).
Proof.
  induction a as [| x a IH]; cbn; intros H.
  - now apply NoDup_firstn_app.
  - inversion H as [| ? ? Hnotin Hrest]; subst. constructor.
    + intros Hin. apply Hnotin.
      apply in_app_or in Hin. apply in_or_app.
      destruct Hin as [Hin | Hin]; [now left | right].
      apply in_app_or in Hin. apply in_or_app.
      destruct Hin as [Hin | Hin]; [left; now apply In_firstn in Hin | now right].
    + now apply IH.
Qed.

End MoreListFacts.

Lemma distinctb_NoDup l : distinctb l = true -> NoDup l.
Proof.
  induction l as [| x l IH]; cbn; intros H; constructor.
  - apply andb_true_iff in H as [Hx _]. intros Hin.
    apply negb_true_iff in Hx.
    assert (existsb (String.eqb x) l = true) as Hex
        by (apply existsb_exists; exists x; split;
            [assumption | apply String.eqb_refl]).
    congruence.
  - apply andb_true_iff in H as [_ Hl]. now apply IH.
Qed.

Lemma all_paths_distinct d : NoDup (all_paths d).
Proof. apply distinctb_NoDup. destruct d; vm_compute; reflexivity. Qed.

Lemma entries_of_map path url_images d :
  entries_of path url_images d
  = map (entry_of path url_images) (available_subjects d).
Proof. reflexivity. Qed.

(** For a count that is not negative, both per-subject lists are the entries
    of the first subjects of the enumeration. *)
Lemma build_file_names_subjects n d url :
  0 <= n ->
  let u := pick_urls url d in
  let subjects := firstn (Z.to_nat n) (available_subjects d) in
  let gm := map (entry_of (gm_path d) (url_images u)) subjects in
  let wm := map (entry_of (wm_path d) (url_images u)) subjects in
  build_file_names n d url
  = Ok (Manifest gm wm
                 (gm ++ wm ++ file_names_extvars (url_csv u)
                     ++ file_names_dua (url_dua u))%list).
Proof.
  intros Hn. cbv zeta. rewrite build_file_names_eq. cbv zeta.
  rewrite !slice_to, firstn_firstn, Nat.min_id, !entries_of_map, !firstn_map
    by assumption.
  reflexivity.
Qed.

(** X6.  For every count that is not negative, the gray-matter and the
    white-matter entries of the manifest are those of the same subjects, in
    the same order: the first subjects of the enumeration, each with the
    URL of the archive and the option [uncompress]. *)
Theorem manifest_pairs_subjects n d url :
  0 <= n ->
  exists m,
    build_file_names n d url = Ok m
    /\ manifest_gm m
       = map (entry_of (gm_path d) (url_images (pick_urls url d)))
             (firstn (Z.to_nat n) (available_subjects d))
    /\ manifest_wm m
       = map (entry_of (wm_path d) (url_images (pick_urls url d)))
             (firstn (Z.to_nat n) (available_subjects d))
    /\ map (fun e => Py.str_take 13 (entry_path e)) (manifest_gm m)
       = map (fun e => Py.str_take 13 (entry_path e)) (manifest_wm m).
Proof.
  intros Hn. eexists. split; [now apply build_file_names_subjects |].
  cbn [manifest_gm manifest_wm]. repeat split.
  rewrite !map_map. apply map_ext_in. intros s Hs.
  apply In_firstn in Hs. revert s Hs. apply ext_in_map.
  destruct d; vm_compute; reflexivity.
Qed.

Lemma manifest_pairs_subjects_witness :
  exists m,
    build_file_names 2 false (Some "http://mirror") = Ok m
    /\ manifest_gm m
       = [("OAS1_0001_MR1/mwc1OAS1_0001_MR1_mpr_anon_fslswapdim_bet.nii.gz",
           "http://mirror/archive.tgz", [("uncompress", true)]);
          ("OAS1_0002_MR1/mwc1OAS1_0002_MR1_mpr_anon_fslswapdim_bet.nii.gz",
           "http://mirror/archive.tgz", [("uncompress", true)])]
    /\ manifest_wm m
       = [("OAS1_0001_MR1/mwc2OAS1_0001_MR1_mpr_anon_fslswapdim_bet.nii.gz",
           "http://mirror/archive.tgz", [("uncompress", true)]);
          ("OAS1_0002_MR1/mwc2OAS1_0002_MR1_mpr_anon_fslswapdim_bet.nii.gz",
           "http://mirror/archive.tgz", [("uncompress", true)])].
Proof.
  destruct (manifest_pairs_subjects 2 false (Some "http://mirror"))
    as (m & Hm & Hgm & Hwm & _); [lia |].
  exists m. split; [exact Hm |]. split.
  - rewrite Hgm. vm_compute. reflexivity.
  - rewrite Hwm. vm_compute. reflexivity.
Defined.

(** X7.  Asking for more subjects only adds subjects: the per-subject lists
    for a count are the beginning of those for any larger count. *)
Theorem manifest_grows_by_prefix n n' d url m m' :
  0 <= n <= n' ->
  build_file_names n d url = Ok m ->
  build_file_names n' d url = Ok m' ->
  manifest_gm m = firstn (Z.to_nat n) (manifest_gm m')
  /\ manifest_wm m = firstn (Z.to_nat n) (manifest_wm m').
Proof.
  intros Hn Hm Hm'.
  rewrite build_file_names_subjects in Hm, Hm' by lia.
  injection Hm as <-. injection Hm' as <-.
  cbn [manifest_gm manifest_wm].
  rewrite !firstn_map, firstn_firstn.
  replace (Nat.min (Z.to_nat n) (Z.to_nat n')) with (Z.to_nat n) by lia.
  split; reflexivity.
Qed.

Lemma manifest_grows_by_prefix_witness :
  exists m m',
    build_file_names 2 true None = Ok m
    /\ build_file_names 5 true None = Ok m'
    /\ manifest_gm m = firstn 2 (manifest_gm m')
    /\ manifest_wm m = firstn 2 (manifest_wm m').
Proof.
  eexists. eexists.
  split; [vm_compute; reflexivity |]. split; [vm_compute; reflexivity |].
  apply (manifest_grows_by_prefix 2 5 true None); [lia | |];
    vm_compute; reflexivity.
Defined.

(** X8.  For every count from 1 to the number of subjects the enumeration
    yields (403 for the DARTEL variant, 414 for the standard one), the
    manifest holds exactly that many gray-matter entries, as many
    white-matter entries, and two more entries. *)
Theorem manifest_exact_within_available n (d : bool) url :
  1 <= n <= (if d then 403 else 414) ->
  exists m,
    build_file_names n d url = Ok m
    /\ Z.of_nat (List.length (manifest_gm m)) = n
    /\ Z.of_nat (List.length (manifest_wm m)) = n
    /\ Z.of_nat (List.length (file_names m)) = 2 * n + 2.
Proof.
  intros Hn. destruct (build_file_names_total n d url) as [m Hm].
  exists m. split; [assumption |].
  destruct (manifest_lengths n d url m) as (Hgm & Hwm & Hall);
    [lia | assumption |].
  rewrite Hall, Hgm, Hwm, length_available_subjects. destruct d; lia.
Qed.

Lemma manifest_exact_within_available_witness :
  exists m,
    build_file_names 414 false None = Ok m
    /\ Z.of_nat (List.length (manifest_gm m)) = 414
    /\ Z.of_nat (List.length (manifest_wm m)) = 414
    /\ Z.of_nat (List.length (file_names m)) = 830.
Proof.
  apply (manifest_exact_within_available 414 false None). lia.
Defined.

Lemma entry_paths_of path url_images d k :
  map entry_path (firstn k (entries_of path url_images d))
  = firstn k (map path (available_subjects d)).
Proof.
  rewrite entries_of_map, <- firstn_map, map_map. reflexivity.
Qed.

(** X9.  Whatever the count, the variant and the URL, no two entries of the
    manifest have the same destination path. *)
Theorem manifest_paths_distinct n d url :
  exists m,
    build_file_names n d url = Ok m
    /\ NoDup (map entry_path (file_names m)).
Proof.
  eexists. split; [apply build_file_names_eq |].
  cbn [file_names]. rewrite !slice_to_any, firstn_firstn.
  rewrite !map_app, !entry_paths_of.
  cbn [file_names_extvars file_names_dua map entry_path fst app].
  apply NoDup_firstn_app, NoDup_app_firstn.
  apply (all_paths_distinct d).
Qed.

(** X10.  An override URL changes the source URLs only: the destination
    paths and the options of the entries are those of the manifest built
    for the public URLs. *)
Theorem manifest_paths_ignore_url n d url :
  exists m m0,
    build_file_names n d url = Ok m
    /\ build_file_names n d None = Ok m0
    /\ map entry_path (file_names m) = map entry_path (file_names m0)
    /\ map snd (file_names m) = map snd (file_names m0).
Proof.
  eexists. eexists.
  split; [apply build_file_names_eq |].
  split; [apply build_file_names_eq |].
  cbn [file_names]. rewrite !slice_to_any, !firstn_firstn, !length_firstn.
  rewrite !length_entries_of, !entries_of_map, !firstn_map, !map_app, !map_map.
  split; reflexivity.
Qed.

(* ================================================================= *)
(** ** Further properties: the ids of the fetched maps *)


(** The file name of the gray-matter and of the white-matter map of a
    subject, inside the directory of the subject. *)
Definition gm_file (dartel_version : bool) (s : Z) : string :=
  (if dartel_version then "mwrc1" else "mwc1")
  ++ "OAS1_" ++ Py.fmt_04d s ++ "_MR1_mpr_anon_fslswapdim_bet.nii.gz".

Definition wm_file (dartel_version : bool) (s : Z) : string :=
  (if dartel_version then "mwrc2" else "mwc2")
  ++ "OAS1_" ++ Py.fmt_04d s ++ "_MR1_mpr_anon_fslswapdim_bet.nii.gz".




Lemma length_encode s : List.length (Py.encode s) = String.length s.
Proof.
  unfold Py.encode, list_byte_of_string. rewrite length_map.
  induction s as [| c s IH]; cbn; [reflexivity | now rewrite IH].
Qed.





Lemma gm_path_split root d s :
  root ++ "/" ++ gm_path d s
  = (root ++ "/OAS1_" ++ Py.fmt_04d s ++ "_MR1") ++ "/" ++ gm_file d s.
Proof.
  unfold gm_path, gm_file. rewrite !append_assoc_string. reflexivity.
Qed.

Lemma wm_path_split root d s :
  root ++ "/" ++ wm_path d s
  = (root ++ "/OAS1_" ++ Py.fmt_04d s ++ "_MR1") ++ "/" ++ wm_file d s.
Proof.
  unfold wm_path, wm_file. rewrite !append_assoc_string. reflexivity.
Qed.

Lemma map_file_facts (file : bool -> Z -> string) d :
  forallb (fun s => no_sep (file d s)) (available_subjects d) = true ->
  map (fun s => subject_id_of (file d s)) (available_subjects d)
  = map (fun s => Ok (table_id s)) (available_subjects d) ->
  forall dir s,
    In s (available_subjects d) ->
    subject_id_of (dir ++ "/" ++ file d s) = Ok (table_id s).
Proof.
  intros Hsep Hid dir s Hs.
  rewrite forallb_forall in Hsep. specialize (Hsep s Hs).
  pose proof (ext_in_map Hid s Hs) as Hfile. cbv beta in Hfile.
  unfold subject_id_of in *.
  rewrite basename_app by assumption.
  unfold os_path.basename in Hfile.
  rewrite after_last_sep_no_sep in Hfile by assumption.
  exact Hfile.
Qed.

(** Under any directory, the id derived from the gray-matter map of a
    subject of the enumeration is the name of the directory of the
    subject. *)
Lemma subject_id_of_rooted_gm root d s :
  In s (available_subjects d) ->
  subject_id_of (root ++ "/" ++ gm_path d s) = Ok (table_id s).
Proof.
  intros Hs. rewrite gm_path_split.
  apply (map_file_facts gm_file d); [| | assumption];
    destruct d; vm_compute; reflexivity.
Qed.

(** X12.  Wherever the fetcher stores the files, the id derived from the
    path of the gray-matter map of a subject of the enumeration is the name
    of the directory of that subject, [OAS1_dddd_MR1]; the path of the
    white-matter map of the subject gives the same id. *)
Theorem subject_id_of_under_any_directory root d s :
  In s (available_subjects d) ->
  subject_id_of (root ++ "/" ++ gm_path d s)
  = Ok (Py.encode ("OAS1_" ++ Py.fmt_04d s ++ "_MR1"))
  /\ subject_id_of (root ++ "/" ++ wm_path d s)
     = subject_id_of (root ++ "/" ++ gm_path d s).
Proof.
  intros Hs. rewrite subject_id_of_rooted_gm by assumption.
  split; [reflexivity |].
  rewrite wm_path_split.
  apply (map_file_facts wm_file d); [| | assumption];
    destruct d; vm_compute; reflexivity.
Qed.

Lemma subject_id_of_under_any_directory_witness :
  In 1 (available_subjects false)
  /\ subject_id_of ("/data/cache" ++ "/" ++ gm_path false 1)
     = Ok (Py.encode "OAS1_0001_MR1")
  /\ subject_id_of ("/data/cache" ++ "/" ++ wm_path false 1)
     = subject_id_of ("/data/cache" ++ "/" ++ gm_path false 1).
Proof.
  assert (H : In 1 (available_subjects false))
    by (vm_compute; left; reflexivity).
  split; [exact H |].
  apply (subject_id_of_under_any_directory "/data/cache" false 1 H).
Defined.

(* ================================================================= *)
(** ** Further properties: the covariates and the whole call *)

Lemma rmap_length {A B} (f : A -> result B) (l : list A) (out : list B) :
  rmap f l = Ok out -> List.length out = List.length l.
Proof.
  revert out. induction l as [| x l IH]; cbn; intros out H.
  - now inversion H.
  - destruct (f x) as [y |]; cbn in H; [| discriminate].
    destruct (rmap f l) as [ys |]; cbn in H; [| discriminate].
    inversion H; subst. cbn. f_equal. now apply IH.
Qed.

Lemma rmap_map_in {A B C} (f : B -> result C) (g : A -> B) (h : A -> C)
      (l : list A) :
  (forall x, In x l -> f (g x) = Ok (h x)) ->
  rmap f (map g l) = Ok (map h l).
Proof.
  induction l as [| x l IH]; cbn; intros Hf; [reflexivity |].
  rewrite Hf by now left. cbn. rewrite IH; [reflexivity |].
  intros y Hy. apply Hf. now right.
Qed.

(** A filtering that returns went over a one-dimensional table with rows. *)
Lemma keep_selected_ok csv_data gm_maps kept :
  keep_selected csv_data gm_maps = Ok kept ->
  exists ids,
    actual_subjects_ids gm_maps = Ok ids
    /\ kept
       = filter (fun row => Py.contains Py.bytes_eqb (id row) ids)
                (records csv_data).
Proof.
  intros H. destruct (actual_subjects_ids gm_maps) as [ids |] eqn:Hids.
  - destruct csv_data as [row | [| row rows]].
    + destruct (keep_selected_degenerate gm_maps ids row Hids) as [E _].
      rewrite E in H. discriminate H.
    + destruct (keep_selected_degenerate gm_maps ids (Row [] []) Hids)
        as [_ E].
      rewrite E in H. discriminate H.
    + rewrite (keep_selected_one_dim (row :: rows) _ ids) in H;
        [| discriminate | assumption].
      injection H as <-. now exists ids.
  - unfold keep_selected in H. rewrite Hids in H. discriminate H.
Qed.

Lemma NoDup_map_filter {A B} (g : A -> B) (f : A -> bool) (l : list A) :
  NoDup (map g l) -> NoDup (map g (filter f l)).
Proof.
  induction l as [| x l IH]; cbn; intros H; [constructor |].
  inversion H as [| ? ? Hnotin Hrest]; subst.
  destruct (f x); [| now apply IH].
  cbn. constructor; [| now apply IH].
  intros Hin. apply Hnotin.
  apply in_map_iff in Hin as (y & Hy & Hin).
  apply filter_In in Hin as [Hin _].
  apply in_map_iff. now exists y.
Qed.

(** X13.  When no two rows of the covariates table have the same id, the
    rows kept are at most as many as the fetched gray-matter maps. *)
Theorem keep_selected_at_most_one_row_per_map
        (csv_data : recarray) gm_maps kept :
  NoDup (map id (records csv_data)) ->
  keep_selected csv_data gm_maps = Ok kept ->
  (List.length kept <= List.length gm_maps)%nat.
Proof.
  intros Hnodup Hkept.
  destruct (keep_selected_ok _ _ _ Hkept) as (ids & Hids & ->).
  rewrite <- (rmap_length _ _ _ Hids).
  rewrite <- (length_map id).
  apply NoDup_incl_length; [now apply NoDup_map_filter |].
  intros i Hi. apply in_map_iff in Hi as (row & <- & Hrow).
  apply filter_In in Hrow as [_ Hrow].
  now apply contains_bytes_In.
Qed.

Lemma keep_selected_at_most_one_row_per_map_witness :
  exists kept,
    keep_selected
      (OneDim (table_of (Py.range 1 11)))
      ["/nidata/oasis_vbm/" ++ gm_path true 3;
       "/nidata/oasis_vbm/" ++ gm_path true 27]
    = Ok kept
    /\ (List.length kept <= 2)%nat.
Proof.
  eexists. split; [vm_compute; reflexivity |].
  apply (keep_selected_at_most_one_row_per_map
           (OneDim (table_of (Py.range 1 11)))
           ["/nidata/oasis_vbm/" ++ gm_path true 3;
            "/nidata/oasis_vbm/" ++ gm_path true 27]).
  - vm_compute. repeat (constructor; [cbn; intuition discriminate |]).
    constructor.
  - vm_compute. reflexivity.
Defined.

(** Where [local_fetcher] stores the entry of destination path [p]. *)
Definition local_path (data_dir : option string) (p : string) : string :=
  match data_dir with Some dir => dir | None => "/nidata" end
  ++ "/oasis_vbm/" ++ p.

Lemma local_path_rooted data_dir p :
  local_path data_dir p
  = (match data_dir with Some dir => dir | None => "/nidata" end
     ++ "/oasis_vbm") ++ "/" ++ p.
Proof.
  unfold local_path. now rewrite append_assoc_string.
Qed.

Lemma local_fetcher_paths data_dir fn resume force verbose :
  local_fetcher data_dir fn resume force verbose
  = Ok (map (fun e => local_path data_dir (entry_path e)) fn).
Proof. reflexivity. Qed.

Lemma split_files_in_order n (gm wm : list string) (c a : string) :
  Z.of_nat (List.length gm) = n ->
  List.length wm = List.length gm ->
  split_files n (gm ++ wm ++ [c; a]) = Ok (Split gm wm c a).
Proof. intros <- Hlen. now apply split_files_aligned. Qed.

(** X14.  With a fetcher that stores every entry under the data directory
    and answers in the order of the manifest, a covariates file read as a
    sequence of at least one row, and a count from 1 to the number of
    subjects of the enumeration, [fetch] returns the local paths of the
    gray-matter maps and of the white-matter maps of the first subjects of
    the enumeration, in that order, the rows of the covariates table whose
    id names one of these subjects, in the order of the table, and the local
    path of the agreement. *)
Theorem fetch_local_end_to_end
        (recfromcsv : string -> result recarray)
        data_dir n (d : bool) url resume force verbose tr table :
  1 <= n <= (if d then 403 else 414) ->
  table <> [] ->
  recfromcsv (local_path data_dir "oasis_cross-sectional.csv")
  = Ok (OneDim table) ->
  fst (fetch local_fetcher recfromcsv data_dir (Some n) d url
             resume force verbose tr)
  = Ok (mkBunch
          (map (fun s => local_path data_dir (gm_path d s))
               (firstn (Z.to_nat n) (available_subjects d)))
          (map (fun s => local_path data_dir (wm_path d s))
               (firstn (Z.to_nat n) (available_subjects d)))
          (filter
             (fun row =>
                Py.contains Py.bytes_eqb (id row)
                            (map table_id
                                 (firstn (Z.to_nat n) (available_subjects d))))
             table)
          (local_path data_dir "data_usage_agreement.txt")).
Proof.
  intros Hn Htable Hcsv.
  assert (Hcap : 1 <= n <= cap d) by (destruct d; cbn; lia).
  rewrite (fetch_stages _ _ _ _ _ _ _ _ _ _ _
                        (check_n_subjects_kept n d tr Hcap)).
  rewrite build_file_names_subjects by lia. cbv zeta. cbn [file_names].
  set (subjects := firstn (Z.to_nat n) (available_subjects d)).
  assert (Hlen : Z.of_nat (List.length subjects) = n).
  { unfold subjects. rewrite length_firstn, length_available_subjects.
    destruct d; lia. }
  rewrite local_fetcher_paths, !map_app, !map_map.
  cbn [file_names_extvars file_names_dua map entry_path entry_of fst app].
  rewrite split_files_in_order;
    [| now rewrite length_map | now rewrite !length_map].
  cbn [ext_vars_file gm_maps wm_maps dua_file].
  rewrite Hcsv.
  rewrite (keep_selected_one_dim _ _ (map table_id subjects));
    [reflexivity | assumption |].
  unfold actual_subjects_ids. apply rmap_map_in.
  intros s Hs. rewrite local_path_rooted.
  apply subject_id_of_rooted_gm. unfold subjects in Hs.
  apply In_firstn in Hs. exact Hs.
Qed.

Lemma fetch_local_end_to_end_witness :
  fst (fetch_oasis_vbm local_fetcher ten_rows_csv (Some 2) false
                       (Some "/data") None true 1 [])
  = Ok (mkBunch
          ["/data/oasis_vbm/" ++ gm_path false 1;
           "/data/oasis_vbm/" ++ gm_path false 2]
          ["/data/oasis_vbm/" ++ wm_path false 1;
           "/data/oasis_vbm/" ++ wm_path false 2]
          (table_of [1; 2])
          "/data/oasis_vbm/data_usage_agreement.txt").
Proof.
  unfold fetch_oasis_vbm.
  rewrite (fetch_local_end_to_end
             ten_rows_csv (Some "/data") 2 false None true false 1 []
             (table_of (Py.range 1 11)));
    [| lia | vm_compute; discriminate | reflexivity].
  vm_compute. reflexivity.
Defined.





